(** * crycaller: the YOLOv5 detection endpoint of [cam_test_dir/yolo_server.py]

    A shallow embedding of the single request handler [detect_objects] and of
    the module-level bootstrap that loads the model, followed by the
    properties of the endpoint.

    Python values are modelled as follows.
    - a Python [float] is an IEEE binary64 number: Rocq's primitive [float];
    - a Python [int] is unbounded: [Z];
    - [bytes] is [list byte], [str] is [string];
    - the dictionaries and lists the handler builds are values of [pyval],
      dictionaries keeping their insertion order;
    - [model.names] is either a [dict] from [int] to [str] ([gmap Z string])
      or a [list] of [str], depending on the release of the detector; both
      subscript semantics are modelled;
    - an exception is the [Raise] outcome of [result]. *)

From Stdlib Require Import ZArith List Strings.Byte Floats.PrimFloat Floats.SpecFloat Floats.FloatOps Floats.FloatAxioms.
From stdpp Require Import base gmap strings list.
Import ListNotations.

Open Scope string_scope.
Open Scope list_scope.
Open Scope Z_scope.

(** ** Exceptions and outcomes *)

Inductive exn : Type :=
| UnidentifiedImageError          (* PIL: the bytes are not an image *)
| InferenceError (code : Z)       (* any failure inside the forward pass *)
| ValueError
| OverflowError
| KeyError (key : Z)
| IndexError.

Inductive result (A : Type) : Type :=
| Ok (a : A)
| Raise (e : exn).
Arguments Ok {A} a.
Arguments Raise {A} e.

Definition returned {A} (r : result A) : bool :=
  match r with Ok _ => true | Raise _ => false end.

(** ** Python built-ins used by the handler *)

(** [int(x)] on a float: truncation toward zero; [ValueError] on a NaN and
    [OverflowError] on an infinity. *)
Definition python_int (x : float) : result Z :=
  match Prim2SF x with
  | S754_nan => Raise ValueError
  | S754_infinity _ => Raise OverflowError
  | S754_zero _ => Ok 0
  | S754_finite s m e =>
      let magnitude := Z.shiftl (Z.pos m) e in
      Ok (if s then - magnitude else magnitude)
  end.

(** [float(x)] on a value that already is a float returns it. *)
Definition python_float (x : float) : float := x.

(** [l[k]] on a list: a negative index counts from the end. *)
Definition list_getitem {A} (l : list A) (k : Z) : result A :=
  let n := Z.of_nat (length l) in
  let i := if k <? 0 then k + n else k in
  if (0 <=? i) && (i <? n)
  then match l !! Z.to_nat i with Some a => Ok a | None => Raise IndexError end
  else Raise IndexError.

(** [d[k]] on a dictionary. *)
Definition dict_getitem {A} (d : gmap Z A) (k : Z) : result A :=
  match d !! k with Some a => Ok a | None => Raise (KeyError k) end.

(** [a, b, c, d, e, f = l]: unpacking into six targets. *)
Definition unpack6 {A} (l : list A) : result (A * A * A * A * A * A) :=
  match l with
  | [a; b; c; d; e; f] => Ok (a, b, c, d, e, f)
  | _ => Raise ValueError
  end.

(** The values the handler builds and returns. *)
#[local] Set Warnings "-register-all".
Inductive pyval : Type :=
| PyInt (z : Z)
| PyFloat (x : float)
| PyStr (s : string)
| PyList (items : list pyval)
| PyDict (entries : list (string * pyval)).

(** [d.get(key)] on a dictionary value, [None] on anything else. *)
Fixpoint assoc (key : string) (entries : list (string * pyval)) : option pyval :=
  match entries with
  | [] => None
  | (k, v) :: rest => if decide (k = key) then Some v else assoc key rest
  end.

Definition dict_get (key : string) (v : pyval) : option pyval :=
  match v with PyDict entries => assoc key entries | _ => None end.

(** The ranges a detection record is documented to have: a confidence
    between 0 and 1, four finite corners, the minima not above the maxima.
    [raw_in_range] asks the same of a raw row. *)
Definition in_unit_interval (c : float) : bool :=
  ((0 <=? c) && (c <=? 1))%float.

Definition box_in_range (x_min y_min x_max y_max : float) : bool :=
  is_finite x_min && is_finite y_min && is_finite x_max && is_finite y_max &&
  (x_min <=? x_max)%float && (y_min <=? y_max)%float.

Definition raw_in_range (raw : list float) : bool :=
  match raw with
  | [x_min; y_min; x_max; y_max; confidence; _] =>
      in_unit_interval confidence && box_in_range x_min y_min x_max y_max
  | _ => false
  end.

Definition record_in_range (d : pyval) : bool :=
  match dict_get "confidence" d, dict_get "bbox" d with
  | Some (PyFloat c), Some (PyList [PyFloat x_min; PyFloat y_min;
                                   PyFloat x_max; PyFloat y_max]) =>
      in_unit_interval c && box_in_range x_min y_min x_max y_max
  | _, _ => false
  end.

(** The shape of what the handler builds: a dictionary with the one key
    [detections], holding a list of dictionaries whose keys are, in this
    order, [class_id] (an int), [class_name] (a str), [confidence] (a float)
    and [bbox] (a list of four floats). *)
Definition is_detection_record (d : pyval) : bool :=
  match d with
  | PyDict [(k1, PyInt _); (k2, PyStr _); (k3, PyFloat _);
            (k4, PyList [PyFloat _; PyFloat _; PyFloat _; PyFloat _])] =>
      bool_decide (k1 = "class_id") && bool_decide (k2 = "class_name") &&
      bool_decide (k3 = "confidence") && bool_decide (k4 = "bbox")
  | _ => false
  end.

Definition is_response (v : pyval) : bool :=
  match v with
  | PyDict [(k, PyList ds)] =>
      bool_decide (k = "detections") && forallb is_detection_record ds
  | _ => false
  end.

(** ** The collaborators of the handler

    The image decoder, the model hub and the detector are libraries; the
    handler sees them through the few attributes and calls it uses. *)

(** What [UploadFile.read()] hands back is the whole upload. *)
Record UploadFile : Type := {
  filename : string;
  content : list byte
}.

(** A two-dimensional tensor is the list of its rows, which is what
    iterating over it yields; a row holds the numbers of one raw detection,
    and [tolist()] hands them out as Python floats. Iterating and [tolist()]
    are calls into the tensor library made once per row; they are modelled
    by their values only and are not entered in the log of [call]s below. *)
Definition Row : Type := list float.
Definition Tensor : Type := list Row.

Definition tolist (row : Row) : list float := row.

(** The object returned by calling the model: [xyxy] holds one tensor of raw
    detections per input image. *)
Record Detections : Type := { xyxy : list Tensor }.

(** [model.names], in either of the two shapes the detector has shipped. *)
Inductive Names : Type :=
| NamesDict (d : gmap Z string)
| NamesList (l : list string).

Definition names_getitem (n : Names) (k : Z) : result string :=
  match n with
  | NamesDict d => dict_getitem d k
  | NamesList l => list_getitem l k
  end.

(** The keys on which [model.names[k]] is defined. *)
Definition valid_key (n : Names) (k : Z) : Prop :=
  match n with
  | NamesDict d => k ∈ dom d
  | NamesList l => - Z.of_nat (length l) ≤ k < Z.of_nat (length l)
  end.

(** Whatever a forward pass depends on besides the handle and the image
    (the detector does not promise bit-reproducible inference). *)
Definition Entropy : Type := nat.

(** The model handle: the class-name table and the call [model(image)].
    The handle is a value: a forward pass answers or raises and leaves the
    handle as it is. *)
Record Model (Image : Type) : Type := {
  names : Names;
  forward : Image → Entropy → result Detections
}.
Arguments names {Image} _.
Arguments forward {Image} _ _ _.


(** The calls a process keeps a log of, in the order made: the hub load,
    the read of the upload, the decoder and the forward pass. The
    conversions the loop applies to values it already holds ([tolist], [int],
    [float], the subscript of the name table) are not logged. *)
Inductive call : Type :=
| HubLoad (repo name : string)
| UploadRead
| ImageOpen
| Forward.

(** [torch.hub.load] fetches the repository and the weights and caches them
    on disk; the other three only read their argument. *)
Definition touches_store (c : call) : bool :=
  match c with
  | HubLoad _ _ => true
  | UploadRead | ImageOpen | Forward => false
  end.

Definition is_hub_load (c : call) : bool :=
  match c with HubLoad _ _ => true | _ => false end.

(** Modelled from the spec: the hosting framework, which is not part of the
    repository. It answers 200 with the returned mapping as JSON, and turns
    an exception that escapes the handler into its generic server error. *)
Record HttpResponse : Type := { status : Z; body : option pyval }.

Definition framework_response (outcome : result pyval) : HttpResponse :=
  match outcome with
  | Ok v => {| status := 200; body := Some v |}
  | Raise _ => {| status := 500; body := None |}
  end.

(** ** Fixtures

    A stand-in decoder and stand-in detectors, small enough to run the
    service on concrete uploads. *)

Module Demo.

(** An upload is accepted when it starts with the PNG signature; the decoded
    image is whatever follows. *)
Definition Image : Type := list byte.

Definition Image_open (data : list byte) : result Image :=
  match data with
  | x89 :: x50 :: x4e :: x47 :: payload => Ok payload
  | _ => Raise UnidentifiedImageError
  end.

Definition png (payload : list byte) : UploadFile :=
  {| filename := "frame.png"; content := x89 :: x50 :: x4e :: x47 :: payload |}.

Definition notes_txt : UploadFile :=
  {| filename := "notes.txt"; content := [x68; x65; x6c; x6c; x6f] |}.

Definition coco3 : gmap Z string :=
  <[0 := "person"]> (<[1 := "bicycle"]> (<[2 := "car"]> ∅)).

Definition street : Tensor :=
  [[12.5; 30; 200; 310.25; 0.875; 0]; [5; 6; 50; 60; 0.25; 2]]%float.

Definition bike : Tensor := [[40; 40; 90; 120; 0.5; 1.75]]%float.

(** The first payload byte selects the scene the detector reports. *)
Definition scenes (rows7 : Tensor) (image : Image) (_ : Entropy)
  : result Detections :=
  match image with
  | x01 :: _ => Ok {| xyxy := [street] |}
  | x02 :: _ => Ok {| xyxy := [bike] |}
  | x07 :: _ => Ok {| xyxy := [rows7] |}
  | xff :: _ => Raise (InferenceError 1)
  | _ => Ok {| xyxy := [[]] |}
  end.

(** Class 7 is outside the three-name table. *)
Definition detector : Model Image :=
  {| names := NamesDict coco3;
     forward := scenes [[1; 2; 3; 4; 0.5; 0]; [1; 2; 3; 4; 0.5; 7]]%float |}.

Definition detector_list : Model Image :=
  {| names := NamesList ["person"; "bicycle"; "car"];
     forward := scenes [[1; 2; 3; 4; 0.5; -1]]%float |}.

Definition hub (m : Model Image) (repo name : string) : Model Image := m.

(** The responses expected of the handler on the scenes. *)
Definition record (k : Z) (class_name : string) (confidence : float)
    (x_min y_min x_max y_max : float) : pyval :=
  PyDict [("class_id", PyInt k);
          ("class_name", PyStr class_name);
          ("confidence", PyFloat confidence);
          ("bbox", PyList [PyFloat x_min; PyFloat y_min;
                           PyFloat x_max; PyFloat y_max])].

Definition street_records : list pyval :=
  [record 0 "person" 0.875 12.5 30 200 310.25; record 2 "car" 0.25 5 6 50 60].

Definition bike_records : list pyval := [record 1 "bicycle" 0.5 40 40 90 120].

Definition response (records : list pyval) : pyval :=
  PyDict [("detections", PyList records)].

(** Detectors for the ways out of the loop: a class id that is not a number,
    one that is infinite, a row of five numbers, no tensor at all, and a
    batch whose second tensor changes from one pass to the next. *)
Definition detector_nan : Model Image :=
  {| names := NamesDict coco3;
     forward := scenes [[1; 2; 3; 4; 0.5; 0]; [1; 2; 3; 4; 0.5; nan];
                        [1; 2; 3; 4; 0.5; 7]]%float |}.

Definition detector_infinity : Model Image :=
  {| names := NamesDict coco3;
     forward := scenes [[1; 2; 3; 4; 0.5; neg_infinity]]%float |}.

Definition detector_short : Model Image :=
  {| names := NamesDict coco3;
     forward := scenes [[1; 2; 3; 4; 0.5; 0]; [1; 2; 3; 4; 0.5]]%float |}.

Definition detector_no_tensor : Model Image :=
  {| names := NamesDict coco3; forward := λ _ _, Ok {| xyxy := [] |} |}.

Definition detector_batch : Model Image :=
  {| names := NamesDict coco3;
     forward := λ _ w, Ok {| xyxy := [street; if Nat.even w then [] else bike] |} |}.

End Demo.

(** ** The service *)

Section Service.

(** The decoded image, [Image.open(io.BytesIO(data))], and
    [torch.hub.load(repo, name)]. *)
Variable Image : Type.
Variable Image_open : list byte → result Image.
Variable torch_hub_load : string → string → Model Image.

(** The state of the Python process once the module is imported: its one
    mutable global, and the library calls made so far. *)
Record Process : Type := {
  model : Model Image;
  calls : list call
}.

(** Statements run against the process and either finish with a value or
    raise; what they did before raising stays done. *)
Definition M (A : Type) : Type := Process → result A * Process.

#[local] Instance M_ret : MRet M := λ A a p, (Ok a, p).

#[local] Instance M_bind : MBind M := λ A B f m p,
  match m p with
  | (Ok a, p') => f a p'
  | (Raise e, p') => (Raise e, p')
  end.

Definition lift {A} (r : result A) : M A := λ p, (r, p).

Definition load_global_model : M (Model Image) := λ p, (Ok (model p), p).

Definition library_call {A} (c : call) (r : result A) : M A :=
  λ p, (r, {| model := model p; calls := (calls p ++ [c])%list |}).

(** The module body: [model = torch.hub.load('ultralytics/yolov5', 'yolov5s')]. *)
Definition module_init : Process :=
  {| model := torch_hub_load "ultralytics/yolov5" "yolov5s";
     calls := [HubLoad "ultralytics/yolov5" "yolov5s"] |}.

(** [for x in xs: body], the loop state being the list [detections]. *)
Fixpoint for_in {A S} (xs : list A) (body : A → S → M S) (acc : S) : M S :=
  match xs with
  | [] => mret acc
  | x :: rest => acc' ← body x acc; for_in rest body acc'
  end.

(** One turn of the loop. The dictionary display evaluates its entries left
    to right: [int(class_id)], then [model.names[int(class_id)]], then the
    floats; [append] puts the record at the end of [detections]. *)
Definition loop_body (detection : Row) (detections : list pyval)
  : M (list pyval) :=
  '(x_min, y_min, x_max, y_max, confidence, class_id) ←
    lift (unpack6 (tolist detection));
  k ← lift (python_int class_id);
  model ← load_global_model;
  k' ← lift (python_int class_id);
  class_name ← lift (names_getitem (names model) k');
  mret (detections ++
    [PyDict [("class_id", PyInt k);
             ("class_name", PyStr class_name);
             ("confidence", PyFloat (python_float confidence));
             ("bbox", PyList [PyFloat (python_float x_min);
                              PyFloat (python_float y_min);
                              PyFloat (python_float x_max);
                              PyFloat (python_float y_max)])]])%list.

(** The handler from the point where [await file.read()] has delivered. *)
Definition after_read (image_data : list byte) (w : Entropy) : M pyval :=
  image ← library_call ImageOpen (Image_open image_data);
  model ← load_global_model;
  results ← library_call Forward (forward model image w);
  first ← lift (list_getitem (xyxy results) 0);
  detections ← for_in first loop_body [];
  mret (PyDict [("detections", PyList detections)]).

(** [detect_objects(file)] *)
Definition detect_objects (file : UploadFile) (w : Entropy) : M pyval :=
  image_data ← library_call UploadRead (Ok (content file));
  after_read image_data w.

(** *** The event loop

    A request is a coroutine. It can be parked once, at [await file.read()];
    everything after that runs without yielding. *)
Inductive coroutine : Type :=
| Created (file : UploadFile) (w : Entropy)
| AwaitingRead (file : UploadFile) (w : Entropy)
| Returned (file : UploadFile) (w : Entropy) (outcome : result pyval).

Record Server : Type := {
  process : Process;
  tasks : list coroutine
}.

Definition boot : Server := {| process := module_init; tasks := [] |}.

Inductive action : Type :=
| Accept (file : UploadFile) (w : Entropy)
| Park (i : nat)
| Finish (i : nat).

Definition finish (i : nat) (file : UploadFile) (w : Entropy) (sv : Server)
  : Server :=
  let '(outcome, p) := detect_objects file w (process sv) in
  {| process := p; tasks := <[i := Returned file w outcome]> (tasks sv) |}.

(** One turn of the loop; an action that is not enabled does nothing. *)
Definition turn (sv : Server) (a : action) : Server :=
  match a with
  | Accept file w =>
      {| process := process sv; tasks := (tasks sv ++ [Created file w])%list |}
  | Park i =>
      match tasks sv !! i with
      | Some (Created file w) =>
          {| process := process sv;
             tasks := <[i := AwaitingRead file w]> (tasks sv) |}
      | _ => sv
      end
  | Finish i =>
      match tasks sv !! i with
      | Some (Created file w) | Some (AwaitingRead file w) => finish i file w sv
      | _ => sv
      end
  end.

Definition run (schedule : list action) : Server := fold_left turn schedule boot.

(** *** The handler as a function of the handle and the upload

    [row_record], [rows_records] and [outcome_of] say without the process
    state what [loop_body], the loop and [detect_objects] compute;
    [loop_body_run], [for_in_run] and [detect_objects_run] below relate
    them. *)
Definition row_record (n : Names) (detection : Row) : result pyval :=
  match unpack6 (tolist detection) with
  | Raise e => Raise e
  | Ok (x_min, y_min, x_max, y_max, confidence, class_id) =>
      match python_int class_id with
      | Raise e => Raise e
      | Ok k =>
          match names_getitem n k with
          | Raise e => Raise e
          | Ok class_name =>
              Ok (PyDict [("class_id", PyInt k);
                          ("class_name", PyStr class_name);
                          ("confidence", PyFloat confidence);
                          ("bbox", PyList [PyFloat x_min; PyFloat y_min;
                                           PyFloat x_max; PyFloat y_max])])
          end
      end
  end.

Fixpoint rows_records (n : Names) (rows : Tensor) : result (list pyval) :=
  match rows with
  | [] => Ok []
  | row :: rest =>
      match row_record n row with
      | Raise e => Raise e
      | Ok d =>
          match rows_records n rest with
          | Raise e => Raise e
          | Ok ds => Ok (d :: ds)
          end
      end
  end.

Definition outcome_of (m : Model Image) (data : list byte) (w : Entropy)
  : result pyval :=
  match Image_open data with
  | Raise e => Raise e
  | Ok image =>
      match forward m image w with
      | Raise e => Raise e
      | Ok results =>
          match list_getitem (xyxy results) 0 with
          | Raise e => Raise e
          | Ok first =>
              match rows_records (names m) first with
              | Raise e => Raise e
              | Ok ds => Ok (PyDict [("detections", PyList ds)])
              end
          end
      end
  end.

Definition calls_of (data : list byte) : list call :=
  match Image_open data with
  | Raise _ => [UploadRead; ImageOpen]
  | Ok _ => [UploadRead; ImageOpen; Forward]
  end.

(** The record of a raw detection, in the words of the interface
    description: the class id converted to an integer, the name the table
    holds for that integer, the confidence and the four corners. *)
Definition detection_record_of (n : Names) (raw : list float) (d : pyval) : Prop :=
  ∃ x_min y_min x_max y_max confidence class_id k class_name,
    raw = [x_min; y_min; x_max; y_max; confidence; class_id] ∧
    python_int class_id = Ok k ∧
    names_getitem n k = Ok class_name ∧
    d = PyDict [("class_id", PyInt k);
                ("class_name", PyStr class_name);
                ("confidence", PyFloat confidence);
                ("bbox", PyList [PyFloat x_min; PyFloat y_min;
                                 PyFloat x_max; PyFloat y_max])].

(** A raw detection the loop body gets through: six numbers, the last of
    which converts to a key of the table. *)
Definition resolvable (n : Names) (raw : list float) : Prop :=
  ∃ x_min y_min x_max y_max confidence class_id k,
    raw = [x_min; y_min; x_max; y_max; confidence; class_id] ∧
    python_int class_id = Ok k ∧
    valid_key n k.

(** The exception [model.names[k]] raises on a key it does not have. *)
Definition lookup_error (n : Names) (k : Z) : exn :=
  match n with
  | NamesDict _ => KeyError k
  | NamesList _ => IndexError
  end.

(** What a request would be answered were it the only one a freshly started
    process ever served. *)
Definition answered (c : coroutine) : Prop :=
  match c with
  | Returned file w outcome => outcome = (detect_objects file w module_init).1
  | _ => True
  end.

(** The global [model] is the handle the module body loaded, and that load
    is the first and the only [torch.hub.load] the process made. *)
Definition loaded_once (p : Process) : Prop :=
  model p = torch_hub_load "ultralytics/yolov5" "yolov5s" ∧
  ∃ later, calls p = HubLoad "ultralytics/yolov5" "yolov5s" :: later ∧
           Forall (λ c, is_hub_load c = false) later.

(** Two raw rows the handler cannot tell apart: the same corners and
    confidence, and class ids with the same integer part. *)
Definition same_detection (raw1 raw2 : Row) : Prop :=
  ∃ x_min y_min x_max y_max confidence class_id1 class_id2,
    raw1 = [x_min; y_min; x_max; y_max; confidence; class_id1] ∧
    raw2 = [x_min; y_min; x_max; y_max; confidence; class_id2] ∧
    python_int class_id1 = python_int class_id2.

(** ** Properties *)

Lemma loop_body_run detection detections p :
  loop_body detection detections p =
  (match row_record (names (model p)) detection with
   | Ok d => Ok (detections ++ [d])%list
   | Raise e => Raise e
   end, p).
Proof.
  unfold loop_body, row_record, mbind, M_bind, lift, load_global_model, mret,
    M_ret, python_float.
  destruct (unpack6 (tolist detection)) as [[[[[[x_min y_min] x_max] y_max] confidence] class_id]|e];
    [|reflexivity].
  destruct (python_int class_id) as [k|e]; [|reflexivity].
  destruct (names_getitem (names (model p)) k); reflexivity.
Qed.

Lemma for_in_run rows : ∀ acc p,
  for_in rows loop_body acc p =
  (match rows_records (names (model p)) rows with
   | Ok ds => Ok (acc ++ ds)%list
   | Raise e => Raise e
   end, p).
Proof.
  induction rows as [|row rest IH]; intros acc p; simpl.
  - unfold mret, M_ret. by rewrite app_nil_r.
  - unfold mbind, M_bind. rewrite loop_body_run.
    destruct (row_record (names (model p)) row) as [d|e]; [|reflexivity].
    rewrite IH.
    destruct (rows_records (names (model p)) rest) as [ds|e]; [|reflexivity].
    by rewrite <- app_assoc.
Qed.

Lemma detect_objects_run file w p :
  detect_objects file w p =
  (outcome_of (model p) (content file) w,
   {| model := model p;
      calls := (calls p ++ calls_of (content file))%list |}).
Proof.
  unfold detect_objects, after_read, outcome_of, calls_of, mbind, M_bind,
    library_call, load_global_model, lift, mret, M_ret; simpl.
  destruct (Image_open (content file)) as [image|e]; simpl.
  2: { by rewrite <- app_assoc. }
  rewrite <- !app_assoc; simpl.
  destruct (forward (model p) image w) as [results|e]; [|reflexivity].
  destruct (list_getitem (xyxy results) 0) as [first|e]; [|reflexivity].
  rewrite for_in_run; simpl.
  destruct (rows_records (names (model p)) first); reflexivity.
Qed.

(** *** The class-name table *)

Lemma list_getitem_Ok {A} (l : list A) k :
  - Z.of_nat (length l) ≤ k < Z.of_nat (length l) → ∃ a, list_getitem l k = Ok a.
Proof.
  intros Hk. unfold list_getitem.
  set (i := if k <? 0 then k + Z.of_nat (length l) else k).
  assert (Hi : 0 ≤ i < Z.of_nat (length l)).
  { subst i. destruct (Z.ltb_spec k 0); lia. }
  destruct (Z.leb_spec 0 i); [|lia].
  destruct (Z.ltb_spec i (Z.of_nat (length l))); [|lia]. simpl.
  destruct (lookup_lt_is_Some_2 l (Z.to_nat i)) as [a Ha]; [lia|].
  rewrite Ha. by exists a.
Qed.

Lemma list_getitem_Raise {A} (l : list A) k :
  ¬ (- Z.of_nat (length l) ≤ k < Z.of_nat (length l)) →
  list_getitem l k = Raise IndexError.
Proof.
  intros Hk. unfold list_getitem.
  destruct (Z.ltb_spec k 0).
  - destruct (Z.leb_spec 0 (k + Z.of_nat (length l))); [lia|reflexivity].
  - destruct (Z.leb_spec 0 k); [|lia].
    destruct (Z.ltb_spec k (Z.of_nat (length l))); [lia|reflexivity].
Qed.

Lemma names_getitem_valid n k :
  valid_key n k → ∃ class_name, names_getitem n k = Ok class_name.
Proof.
  destruct n as [d|l]; simpl.
  - intros [s Hs]%elem_of_dom. exists s. unfold dict_getitem. by rewrite Hs.
  - apply list_getitem_Ok.
Qed.

Lemma names_getitem_invalid n k :
  ¬ valid_key n k → names_getitem n k = Raise (lookup_error n k).
Proof.
  destruct n as [d|l]; simpl.
  - intros Hk. unfold dict_getitem.
    destruct (d !! k) as [s|] eqn:Hs; [|reflexivity].
    exfalso. apply Hk, elem_of_dom. by exists s.
  - apply list_getitem_Raise.
Qed.

Lemma names_getitem_Ok_valid n k class_name :
  names_getitem n k = Ok class_name → valid_key n k.
Proof.
  intros Hget. destruct n as [d|l]; simpl in *.
  - unfold dict_getitem in Hget. apply elem_of_dom.
    destruct (d !! k) as [s|]; [by exists s|discriminate].
  - destruct (decide (- Z.of_nat (length l) ≤ k < Z.of_nat (length l)))
      as [|Hout]; [assumption|].
    rewrite (list_getitem_Raise _ _ Hout) in Hget. discriminate.
Qed.

(** *** The loop, row by row *)

Lemma row_record_Ok n raw d :
  row_record n raw = Ok d ↔ detection_record_of n raw d.
Proof.
  unfold row_record, detection_record_of. split.
  - destruct raw as [|a [|b [|c [|x [|e [|f [|g rest]]]]]]]; simpl; try discriminate.
    destruct (python_int f) as [k|] eqn:Hk; [|discriminate].
    destruct (names_getitem n k) as [s|] eqn:Hs; [|discriminate].
    intros [= <-]. by exists a, b, c, x, e, f, k, s.
  - intros (a & b & c & x & e & f & k & s & -> & Hk & Hs & ->); simpl.
    by rewrite Hk, Hs.
Qed.

Lemma rows_records_Ok n rows : ∀ ds,
  rows_records n rows = Ok ds ↔ Forall2 (detection_record_of n) rows ds.
Proof.
  induction rows as [|raw rest IH]; intros ds; simpl.
  - split.
    + intros [= <-]. constructor.
    + intros ->%Forall2_nil_inv_l. reflexivity.
  - split.
    + destruct (row_record n raw) as [d|] eqn:Hd; [|discriminate].
      destruct (rows_records n rest) as [ds'|] eqn:Hds; [|discriminate].
      intros [= <-]. constructor; [by apply row_record_Ok|by apply IH].
    + intros (d & ds' & Hd & Hds & ->)%Forall2_cons_inv_l.
      apply row_record_Ok in Hd. apply IH in Hds. by rewrite Hd, Hds.
Qed.

Lemma resolvable_record n raw :
  resolvable n raw → ∃ d, detection_record_of n raw d.
Proof.
  intros (a & b & c & x & e & f & k & -> & Hk & Hv).
  destruct (names_getitem_valid _ _ Hv) as [s Hs].
  eexists. by exists a, b, c, x, e, f, k, s.
Qed.

Lemma rows_records_resolvable n rows :
  Forall (resolvable n) rows → ∃ ds, rows_records n rows = Ok ds.
Proof.
  induction 1 as [|raw rest Hraw _ [ds IH]]; simpl.
  - by exists [].
  - destruct (resolvable_record _ _ Hraw) as [d Hd%row_record_Ok].
    rewrite Hd, IH. by eexists.
Qed.

Lemma detect_objects_first file w p image results first :
  Image_open (content file) = Ok image →
  forward (model p) image w = Ok results →
  list_getitem (xyxy results) 0 = Ok first →
  (detect_objects file w p).1 =
  match rows_records (names (model p)) first with
  | Raise e => Raise e
  | Ok ds => Ok (PyDict [("detections", PyList ds)])
  end.
Proof.
  intros Himg Hres Hfirst. rewrite detect_objects_run; simpl.
  unfold outcome_of. by rewrite Himg, Hres, Hfirst.
Qed.

Lemma detect_objects_returned file w p image results first ds :
  Image_open (content file) = Ok image →
  forward (model p) image w = Ok results →
  list_getitem (xyxy results) 0 = Ok first →
  (detect_objects file w p).1 = Ok (PyDict [("detections", PyList ds)]) ↔
  Forall2 (detection_record_of (names (model p))) first ds.
Proof.
  intros Himg Hres Hfirst.
  rewrite (detect_objects_first _ _ _ _ _ _ Himg Hres Hfirst), <- rows_records_Ok.
  destruct (rows_records (names (model p)) first); split; congruence.
Qed.

(** C1. When the upload decodes and the model answers, what the handler
    returns is [{"detections": ds}] where [ds] lists, row for row, the record
    of each raw 6-tuple of the first result set: [class_id] is [int] of the
    raw class id, [class_name] is the table's entry at that same integer,
    [confidence] and [bbox] are the raw numbers. It returns whenever such a
    list exists. *)
Theorem detect_objects_records file w p image results first out :
  Image_open (content file) = Ok image →
  forward (model p) image w = Ok results →
  list_getitem (xyxy results) 0 = Ok first →
  (detect_objects file w p).1 = Ok out ↔
  ∃ ds, out = PyDict [("detections", PyList ds)] ∧
        Forall2 (detection_record_of (names (model p))) first ds.
Proof.
  intros Himg Hres Hfirst.
  rewrite (detect_objects_first _ _ _ _ _ _ Himg Hres Hfirst).
  destruct (rows_records (names (model p)) first) as [ds'|e] eqn:Hrows.
  - apply rows_records_Ok in Hrows. split.
    + intros [= <-]. by exists ds'.
    + intros (ds & -> & Hds). apply rows_records_Ok in Hrows, Hds. congruence.
  - split; [discriminate|].
    intros (ds & _ & Hds%rows_records_Ok). congruence.
Qed.

(** C2. The handler reads the first result set and nothing else of the
    model's answer. A returned array has one record per raw row, in the
    order of the rows, each carrying its row's confidence and corners; and
    the handler does return, whatever the confidences and however many rows
    there are, as soon as every row resolves to a class name. *)
Theorem detect_objects_one_per_row file w p image results first :
  Image_open (content file) = Ok image →
  forward (model p) image w = Ok results →
  list_getitem (xyxy results) 0 = Ok first →
  (∀ ds, (detect_objects file w p).1 = Ok (PyDict [("detections", PyList ds)]) →
     length ds = length first ∧
     ∀ i raw, first !! i = Some raw →
       ∃ d x_min y_min x_max y_max confidence class_id,
         ds !! i = Some d ∧
         raw = [x_min; y_min; x_max; y_max; confidence; class_id] ∧
         dict_get "confidence" d = Some (PyFloat confidence) ∧
         dict_get "bbox" d = Some (PyList [PyFloat x_min; PyFloat y_min;
                                           PyFloat x_max; PyFloat y_max])) ∧
  (Forall (resolvable (names (model p))) first →
     ∃ ds, (detect_objects file w p).1 = Ok (PyDict [("detections", PyList ds)]) ∧
           length ds = length first).
Proof.
  intros Himg Hres Hfirst.
  pose proof (λ ds, detect_objects_returned file w p image results first ds
                      Himg Hres Hfirst) as Hrec.
  split.
  - intros ds Hall%Hrec.
    split; [symmetry; by eapply Forall2_length|].
    intros i raw Hraw.
    destruct (Forall2_lookup_l _ _ _ _ _ Hall Hraw)
      as (d & Hd & a & b & c & x & e & f & k & s & -> & _ & _ & ->).
    by exists (PyDict [("class_id", PyInt k); ("class_name", PyStr s);
                       ("confidence", PyFloat e);
                       ("bbox", PyList [PyFloat a; PyFloat b; PyFloat c; PyFloat x])]),
      a, b, c, x, e, f.
  - intros Hall.
    destruct (rows_records_resolvable _ _ Hall) as [ds Hds%rows_records_Ok].
    exists ds. split; [by apply Hrec|symmetry; by eapply Forall2_length].
Qed.

(** C3. When the first result set has no row, the handler returns
    [{"detections": []}]. *)
Theorem detect_objects_nothing_found file w p image results :
  Image_open (content file) = Ok image →
  forward (model p) image w = Ok results →
  list_getitem (xyxy results) 0 = Ok [] →
  (detect_objects file w p).1 = Ok (PyDict [("detections", PyList [])]).
Proof.
  intros Himg Hres Hfirst.
  by rewrite (detect_objects_first _ _ _ _ _ _ Himg Hres Hfirst).
Qed.

Lemma record_in_range_raw n raw d :
  detection_record_of n raw d → record_in_range d = raw_in_range raw.
Proof. by intros (a & b & c & x & e & f & k & s & -> & _ & _ & ->). Qed.

(** The handler copies confidence and corners: every returned record is
    within the ranges exactly when every raw row of the first result set
    is. *)
Lemma detect_objects_ranges_copied file w p image results first ds :
  Image_open (content file) = Ok image →
  forward (model p) image w = Ok results →
  list_getitem (xyxy results) 0 = Ok first →
  (detect_objects file w p).1 = Ok (PyDict [("detections", PyList ds)]) →
  Forall (λ raw, raw_in_range raw = true) first ↔
  Forall (λ d, record_in_range d = true) ds.
Proof.
  intros Himg Hres Hfirst Hall.
  apply (detect_objects_returned _ _ _ _ _ _ _ Himg Hres Hfirst) in Hall.
  clear -Hall. induction Hall as [|raw d rows ds Hd _ IH].
  - split; constructor.
  - apply record_in_range_raw in Hd.
    rewrite !Forall_cons, IH, Hd. reflexivity.
Qed.


(** C5. An upload the decoder refuses: the decoder's exception leaves the
    handler as it is, the model is not called, and the framework answers
    with its server error, which carries no detections. *)
Theorem detect_objects_undecodable file w p e :
  Image_open (content file) = Raise e →
  (detect_objects file w p).1 = Raise e ∧
  calls (detect_objects file w p).2 = (calls p ++ [UploadRead; ImageOpen])%list ∧
  framework_response (detect_objects file w p).1 = {| status := 500; body := None |}.
Proof.
  intros Himg. rewrite detect_objects_run; simpl.
  unfold outcome_of, calls_of. rewrite Himg. by repeat split.
Qed.

(** C6. Two calls on uploads with the same bytes, in processes holding the
    same handle, return the same outcome as soon as the two forward passes
    agree; nothing else of the process or of the call enters the response. *)
Theorem detect_objects_deterministic file1 file2 w1 w2 p1 p2 :
  model p1 = model p2 →
  content file1 = content file2 →
  (∀ image, Image_open (content file1) = Ok image →
     forward (model p1) image w1 = forward (model p1) image w2) →
  (detect_objects file1 w1 p1).1 = (detect_objects file2 w2 p2).1.
Proof.
  intros Hm Hbytes Hfwd. rewrite !detect_objects_run; simpl.
  rewrite <- Hm, <- Hbytes. unfold outcome_of.
  destruct (Image_open (content file1)) as [image|e] eqn:Himg; [|reflexivity].
  by rewrite (Hfwd image).
Qed.

(** C9. Handling a request leaves the global [model] as it was and makes
    only calls that read: the upload, the decoder and the forward pass. *)
Theorem detect_objects_frame file w p :
  model (detect_objects file w p).2 = model p ∧
  ∃ made, calls (detect_objects file w p).2 = (calls p ++ made)%list ∧
          Forall (λ c, touches_store c = false) made.
Proof.
  rewrite detect_objects_run; simpl. split; [reflexivity|].
  exists (calls_of (content file)). split; [reflexivity|].
  unfold calls_of. destruct (Image_open (content file)); repeat constructor.
Qed.

Lemma rows_records_app n before after :
  rows_records n (before ++ after) =
  match rows_records n before with
  | Raise e => Raise e
  | Ok ds =>
      match rows_records n after with
      | Raise e => Raise e
      | Ok ds' => Ok (ds ++ ds')%list
      end
  end.
Proof.
  induction before as [|raw rest IH]; simpl.
  - by destruct (rows_records n after).
  - destruct (row_record n raw); [|reflexivity]. rewrite IH.
    destruct (rows_records n rest); [|reflexivity].
    by destruct (rows_records n after).
Qed.

Lemma rows_records_Raise n rows raw :
  raw ∈ rows → returned (row_record n raw) = false →
  returned (rows_records n rows) = false.
Proof.
  intros Hin Hraw. induction rows as [|other rest IH]; simpl.
  - by apply elem_of_nil in Hin.
  - apply elem_of_cons in Hin as [<-|Hin].
    + by destruct (row_record n raw).
    + destruct (row_record n other); [|reflexivity].
      specialize (IH Hin). by destruct (rows_records n rest).
Qed.

(** C10. A raw row whose class id converts to an integer that is not a key
    of the table: the loop body raises the table's lookup error on it, the
    handler returns nothing, and what it raises is that lookup error when the
    rows before it resolve. *)
Theorem detect_objects_unknown_class file w p image results before after
    x_min y_min x_max y_max confidence class_id k :
  Image_open (content file) = Ok image →
  forward (model p) image w = Ok results →
  list_getitem (xyxy results) 0 =
    Ok (before ++ [x_min; y_min; x_max; y_max; confidence; class_id] :: after)%list →
  python_int class_id = Ok k →
  ¬ valid_key (names (model p)) k →
  (∀ detections,
     (loop_body [x_min; y_min; x_max; y_max; confidence; class_id] detections p).1
     = Raise (lookup_error (names (model p)) k)) ∧
  returned (detect_objects file w p).1 = false ∧
  (Forall (resolvable (names (model p))) before →
   (detect_objects file w p).1 = Raise (lookup_error (names (model p)) k)).
Proof.
  intros Himg Hres Hfirst Hk Hinvalid.
  set (raw := [x_min; y_min; x_max; y_max; confidence; class_id]) in *.
  assert (Hraw : row_record (names (model p)) raw
                 = Raise (lookup_error (names (model p)) k)).
  { unfold row_record; simpl. by rewrite Hk, names_getitem_invalid. }
  rewrite (detect_objects_first _ _ _ _ _ _ Himg Hres Hfirst).
  split; [|split].
  - intros detections. rewrite loop_body_run; simpl. by rewrite Hraw.
  - pose proof (rows_records_Raise (names (model p)) (before ++ raw :: after) raw)
      as Hnone.
    destruct (rows_records (names (model p)) (before ++ raw :: after));
      [|reflexivity].
    apply Hnone; [set_solver|by rewrite Hraw].
  - intros [ds Hds]%rows_records_resolvable.
    rewrite rows_records_app, Hds. simpl. by rewrite Hraw.
Qed.

(** *** The event loop *)

Lemma finish_eq i file w sv :
  finish i file w sv =
  {| process := (detect_objects file w (process sv)).2;
     tasks := <[i := Returned file w (detect_objects file w (process sv)).1]> (tasks sv) |}.
Proof. unfold finish. by destruct (detect_objects file w (process sv)). Qed.

Lemma outcome_same_handle file w p1 p2 :
  model p1 = model p2 →
  (detect_objects file w p1).1 = (detect_objects file w p2).1.
Proof. intros Hm. rewrite !detect_objects_run; simpl. by rewrite Hm. Qed.

Lemma detect_objects_loaded_once file w p :
  loaded_once p → loaded_once (detect_objects file w p).2.
Proof.
  intros [Hm (later & Hcalls & Hlater)]. rewrite detect_objects_run; simpl.
  split; [assumption|].
  exists (later ++ calls_of (content file)). rewrite Hcalls. split; [reflexivity|].
  apply Forall_app. split; [assumption|].
  unfold calls_of. destruct (Image_open (content file)); repeat constructor.
Qed.

Lemma finish_invariant i file w sv :
  loaded_once (process sv) → Forall answered (tasks sv) →
  loaded_once (process (finish i file w sv)) ∧
  Forall answered (tasks (finish i file w sv)).
Proof.
  intros Hp Htasks. rewrite finish_eq; simpl. split.
  - by apply detect_objects_loaded_once.
  - apply Forall_insert; [assumption|]. simpl.
    apply outcome_same_handle. destruct Hp as [-> _]. reflexivity.
Qed.

Lemma turn_invariant sv a :
  loaded_once (process sv) → Forall answered (tasks sv) →
  loaded_once (process (turn sv a)) ∧ Forall answered (tasks (turn sv a)).
Proof.
  intros Hp Htasks. destruct a as [file w|i|i]; simpl.
  - split; [assumption|]. apply Forall_app. by repeat constructor.
  - destruct (tasks sv !! i) as [[file w|file w|file w outcome]|]; try done.
    simpl. split; [assumption|]. by apply Forall_insert.
  - destruct (tasks sv !! i) as [[file w|file w|file w outcome]|]; try done;
      by apply finish_invariant.
Qed.

Lemma fold_turn_invariant schedule : ∀ sv,
  loaded_once (process sv) → Forall answered (tasks sv) →
  loaded_once (process (fold_left turn schedule sv)) ∧
  Forall answered (tasks (fold_left turn schedule sv)).
Proof.
  induction schedule as [|a rest IH]; intros sv Hp Htasks; simpl.
  - by split.
  - destruct (turn_invariant sv a Hp Htasks) as [Hp' Htasks']. by apply IH.
Qed.

Lemma run_invariant schedule :
  loaded_once (process (run schedule)) ∧ Forall answered (tasks (run schedule)).
Proof.
  apply fold_turn_invariant; simpl.
  - split; [reflexivity|]. exists []. by split.
  - constructor.
Qed.

(** C7. Under every interleaving of the event loop, a request that has
    returned holds the outcome computed from its own upload by the shared
    handle, the same as if no other request had ever been served; and a
    request that has not returned can be run to that outcome whatever the
    other requests are doing, without touching them. *)
Theorem requests_isolated schedule i file w :
  (∀ outcome,
     tasks (run schedule) !! i = Some (Returned file w outcome) →
     outcome = (detect_objects file w module_init).1 ∧
     outcome = outcome_of (torch_hub_load "ultralytics/yolov5" "yolov5s")
                 (content file) w) ∧
  (tasks (run schedule) !! i = Some (Created file w) ∨
   tasks (run schedule) !! i = Some (AwaitingRead file w) →
   tasks (run (schedule ++ [Finish i])) !! i
   = Some (Returned file w (detect_objects file w module_init).1) ∧
   ∀ j, j ≠ i →
     tasks (run (schedule ++ [Finish i])) !! j = tasks (run schedule) !! j).
Proof.
  destruct (run_invariant schedule) as [[Hm _] Htasks]. split.
  - intros outcome Hi.
    pose proof (proj1 (Forall_lookup _ _) Htasks i _ Hi) as Hans. simpl in Hans.
    split; [assumption|]. rewrite Hans, detect_objects_run. reflexivity.
  - intros Hi. unfold run. rewrite fold_left_app. simpl.
    fold (run schedule).
    assert (Hstep : match tasks (run schedule) !! i with
                    | Some (Created file0 w0) | Some (AwaitingRead file0 w0) =>
                        finish i file0 w0 (run schedule)
                    | _ => run schedule
                    end = finish i file w (run schedule)).
    { by destruct Hi as [-> | ->]. }
    rewrite Hstep, finish_eq. simpl. split.
    + rewrite list_lookup_insert_eq.
      * f_equal. f_equal. by apply outcome_same_handle.
      * destruct Hi as [Hi|Hi]; by apply lookup_lt_Some in Hi.
    + intros j Hj. by apply list_lookup_insert_ne.
Qed.

(** C8. In every state the server reaches, the global [model] is the handle
    the module body loaded at import, and the call log starts with that load
    and holds no other: serving requests neither rebinds nor reloads it. A
    single invocation of the handler hands the global back as it found it. *)
Theorem model_loaded_once schedule :
  model (process (run schedule)) = torch_hub_load "ultralytics/yolov5" "yolov5s" ∧
  (∃ later,
     calls (process (run schedule)) = HubLoad "ultralytics/yolov5" "yolov5s" :: later ∧
     Forall (λ c, is_hub_load c = false) later) ∧
  (∀ file w, model (detect_objects file w (process (run schedule))).2
             = model (process (run schedule))).
Proof.
  destruct (run_invariant schedule) as [[Hm Hcalls] _].
  split; [assumption|]. split; [assumption|].
  intros file w. by rewrite detect_objects_run.
Qed.

(** *** Beyond the first result set: the other ways out of the handler *)

(** [int(x)] on the floats that are not finite. *)
Lemma SFcompare_finite_refl s m e :
  SFcompare (S754_finite s m e) (S754_finite s m e) = Some Eq.
Proof.
  simpl. rewrite Z.compare_refl, Pos.compare_cont_refl. by destruct s.
Qed.

Lemma python_int_nan x : is_nan x = true → python_int x = Raise ValueError.
Proof.
  unfold is_nan, python_int. rewrite FloatAxioms.eqb_spec. unfold SFeqb.
  destruct (Prim2SF x) as [s|s| |s m e]; try reflexivity.
  - by destruct s.
  - by destruct s.
  - by rewrite SFcompare_finite_refl.
Qed.

Lemma python_int_infinity x :
  is_infinity x = true → python_int x = Raise OverflowError.
Proof.
  unfold is_infinity, python_int. rewrite FloatAxioms.eqb_spec, abs_spec.
  by destruct (Prim2SF x) as [s|s| |s m e].
Qed.

Lemma python_int_not_finite x :
  is_finite x = false →
  python_int x = Raise (if is_nan x then ValueError else OverflowError).
Proof.
  unfold is_finite. intros Hx%negb_false_iff.
  destruct (is_nan x) eqn:Hnan; [by apply python_int_nan|].
  by apply python_int_infinity.
Qed.

(** X9. [int(class_id)] on a finite float [(-1)^s * m * 2^e] is the
    quotient, rounded toward zero, of the numerator of that number by its
    denominator: the fractional part is dropped, never rounded. *)
Theorem python_int_quot x s m e :
  Prim2SF x = S754_finite s m e →
  python_int x =
  Ok ((if s then - Z.pos m else Z.pos m) * 2 ^ Z.max e 0 ÷ 2 ^ Z.max (- e) 0).
Proof.
  intros Hx. unfold python_int. rewrite Hx. f_equal.
  destruct (Z.le_gt_cases 0 e) as [He|He].
  - rewrite Z.max_l, Z.max_r by lia. rewrite Z.shiftl_mul_pow2 by lia.
    rewrite Z.pow_0_r, Z.quot_1_r. destruct s; lia.
  - rewrite Z.max_r, Z.max_l by lia. rewrite Z.shiftl_div_pow2 by lia.
    rewrite Z.pow_0_r, Z.mul_1_r.
    assert (Hd : 0 < 2 ^ (- e)) by (apply Z.pow_pos_nonneg; lia).
    destruct s.
    + rewrite Z.quot_opp_l by lia. rewrite Z.quot_div_nonneg by lia. reflexivity.
    + rewrite Z.quot_div_nonneg by lia. reflexivity.
Qed.

Lemma rows_records_first_failure n before raw after e :
  Forall (resolvable n) before →
  row_record n raw = Raise e →
  rows_records n (before ++ raw :: after) = Raise e.
Proof.
  intros [ds Hds]%rows_records_resolvable Hraw.
  rewrite rows_records_app, Hds. simpl. by rewrite Hraw.
Qed.

Lemma loop_body_outcome raw detections p :
  (loop_body raw detections p).1 =
  match row_record (names (model p)) raw with
  | Ok d => Ok (detections ++ [d])
  | Raise e => Raise e
  end.
Proof. by rewrite loop_body_run. Qed.

Lemma row_record_short n (raw : Row) :
  length raw ≠ 6%nat → row_record n raw = Raise ValueError.
Proof.
  intros Hlen. unfold row_record, tolist.
  by destruct raw as [|a [|b [|c [|x [|e [|f [|g rest]]]]]]].
Qed.

(** X1. An exception raised inside [model(image)] leaves the handler as it
    is: the loop is not entered and nothing is returned. *)
Theorem detect_objects_forward_raises file w p image e :
  Image_open (content file) = Ok image →
  forward (model p) image w = Raise e →
  (detect_objects file w p).1 = Raise e.
Proof.
  intros Himg Hfwd. rewrite detect_objects_run; simpl.
  unfold outcome_of. by rewrite Himg, Hfwd.
Qed.

(** X2. When the model's answer holds no tensor at all, [results.xyxy[0]]
    raises [IndexError] and so does the handler. *)
Theorem detect_objects_no_tensor file w p image results :
  Image_open (content file) = Ok image →
  forward (model p) image w = Ok results →
  xyxy results = [] →
  (detect_objects file w p).1 = Raise IndexError.
Proof.
  intros Himg Hfwd Hnone. rewrite detect_objects_run; simpl.
  unfold outcome_of. by rewrite Himg, Hfwd, Hnone.
Qed.

(** X3. Of the model's answer only the first tensor counts: two forward
    passes whose answers start with the same tensor get the same outcome,
    whatever else the answers hold. *)
Theorem detect_objects_first_tensor_only file w1 w2 p image first rest1 rest2 :
  Image_open (content file) = Ok image →
  forward (model p) image w1 = Ok {| xyxy := first :: rest1 |} →
  forward (model p) image w2 = Ok {| xyxy := first :: rest2 |} →
  (detect_objects file w1 p).1 = (detect_objects file w2 p).1.
Proof.
  intros Himg Hfwd1 Hfwd2.
  rewrite (detect_objects_first file w1 p image _ first Himg Hfwd1 eq_refl).
  by rewrite (detect_objects_first file w2 p image _ first Himg Hfwd2 eq_refl).
Qed.

(** X4. A row that does not hold exactly six numbers stops the handler with
    the [ValueError] of the unpacking, once the rows before it have
    resolved. *)
Theorem detect_objects_malformed_row file w p image results before raw after :
  Image_open (content file) = Ok image →
  forward (model p) image w = Ok results →
  list_getitem (xyxy results) 0 = Ok (before ++ raw :: after) →
  Forall (resolvable (names (model p))) before →
  length raw ≠ 6%nat →
  (detect_objects file w p).1 = Raise ValueError.
Proof.
  intros Himg Hfwd Hfirst Hbefore Hlen.
  rewrite (detect_objects_first _ _ _ _ _ _ Himg Hfwd Hfirst).
  rewrite (rows_records_first_failure _ _ _ _ ValueError Hbefore); [reflexivity|].
  by apply row_record_short.
Qed.

(** X5. A class id that is not finite stops the handler before the table is
    consulted: [ValueError] for a NaN, [OverflowError] for an infinity,
    whatever the table holds. *)
Theorem detect_objects_class_id_not_finite file w p image results before after
    x_min y_min x_max y_max confidence class_id :
  Image_open (content file) = Ok image →
  forward (model p) image w = Ok results →
  list_getitem (xyxy results) 0 =
    Ok (before ++ [x_min; y_min; x_max; y_max; confidence; class_id] :: after) →
  Forall (resolvable (names (model p))) before →
  is_finite class_id = false →
  (detect_objects file w p).1 =
  Raise (if is_nan class_id then ValueError else OverflowError).
Proof.
  intros Himg Hfwd Hfirst Hbefore Hid.
  rewrite (detect_objects_first _ _ _ _ _ _ Himg Hfwd Hfirst).
  erewrite rows_records_first_failure; [reflexivity|assumption|].
  unfold row_record; simpl. by rewrite (python_int_not_finite _ Hid).
Qed.

(** X6. All or nothing: the exception the loop body raises on the first row
    it cannot get through is the outcome of the whole request. The records
    built for the rows before it are dropped, and the rows after it are not
    looked at. *)
Theorem detect_objects_first_failure file w p image results before raw after
    detections e :
  Image_open (content file) = Ok image →
  forward (model p) image w = Ok results →
  list_getitem (xyxy results) 0 = Ok (before ++ raw :: after) →
  Forall (resolvable (names (model p))) before →
  (loop_body raw detections p).1 = Raise e →
  (detect_objects file w p).1 = Raise e.
Proof.
  intros Himg Hfwd Hfirst Hbefore Hraw.
  rewrite loop_body_outcome in Hraw.
  rewrite (detect_objects_first _ _ _ _ _ _ Himg Hfwd Hfirst).
  erewrite rows_records_first_failure; [reflexivity|assumption|].
  destruct (row_record (names (model p)) raw); [discriminate|congruence].
Qed.

(** X7. One request reads the upload once, calls the decoder once and calls
    the model once when the decoder returned, not at all when it raised:
    the forward pass is not made again for a row, nor after a failure. *)
Theorem detect_objects_calls file w p :
  calls (detect_objects file w p).2 =
  calls p ++ [UploadRead; ImageOpen] ++
  (if returned (Image_open (content file)) then [Forward] else []).
Proof.
  rewrite detect_objects_run; simpl. unfold calls_of.
  by destruct (Image_open (content file)).
Qed.

Lemma rows_records_shape n rows ds :
  rows_records n rows = Ok ds → forallb is_detection_record ds = true.
Proof.
  intros Hall%rows_records_Ok.
  induction Hall as [|raw d rows ds Hd _ IH]; [reflexivity|].
  destruct Hd as (a & b & c & x & e & f & k & s & _ & _ & _ & ->).
  simpl. exact IH.
Qed.

(** X8. Whatever the upload and the model, a value the handler returns is a
    dictionary with the single key [detections] over a list of records of
    the four keys [class_id], [class_name], [confidence], [bbox], typed int,
    str, float and list of four floats. *)
Theorem detect_objects_response_shape file w p out :
  (detect_objects file w p).1 = Ok out → is_response out = true.
Proof.
  rewrite detect_objects_run; simpl. unfold outcome_of.
  destruct (Image_open (content file)) as [image|]; [|discriminate].
  destruct (forward (model p) image w) as [results|]; [|discriminate].
  destruct (list_getitem (xyxy results) 0) as [first|]; [|discriminate].
  destruct (rows_records (names (model p)) first) as [ds|] eqn:Hds;
    [|discriminate].
  intros [= <-]. simpl. by apply rows_records_shape in Hds.
Qed.

(** X10. On a table that is a list, a negative class id within the length of
    the list is not refused: the row is answered with the name counted from
    the end of the list, under the negative [class_id]. *)
Theorem loop_body_negative_class_id p l detections
    x_min y_min x_max y_max confidence class_id k :
  names (model p) = NamesList l →
  python_int class_id = Ok k →
  - Z.of_nat (length l) ≤ k < 0 →
  ∃ class_name,
    l !! Z.to_nat (k + Z.of_nat (length l)) = Some class_name ∧
    (loop_body [x_min; y_min; x_max; y_max; confidence; class_id] detections p).1
    = Ok (detections ++
          [PyDict [("class_id", PyInt k);
                   ("class_name", PyStr class_name);
                   ("confidence", PyFloat confidence);
                   ("bbox", PyList [PyFloat x_min; PyFloat y_min;
                                    PyFloat x_max; PyFloat y_max])]]).
Proof.
  intros Hnames Hk Hrange.
  destruct (lookup_lt_is_Some_2 l (Z.to_nat (k + Z.of_nat (length l))))
    as [class_name Hname]; [lia|].
  exists class_name. split; [assumption|].
  rewrite loop_body_outcome. unfold row_record; simpl.
  rewrite Hk, Hnames; simpl. unfold list_getitem.
  destruct (Z.ltb_spec k 0); [|lia].
  destruct (Z.leb_spec 0 (k + Z.of_nat (length l))); [|lia].
  destruct (Z.ltb_spec (k + Z.of_nat (length l)) (Z.of_nat (length l))); [|lia].
  simpl. by rewrite Hname.
Qed.

Lemma detection_record_of_same n1 n2 raw1 raw2 d :
  detection_record_of n1 raw1 d → detection_record_of n2 raw2 d →
  same_detection raw1 raw2.
Proof.
  intros (a & b & c & x & e & f & k & s & -> & Hk & _ & ->)
         (a' & b' & c' & x' & e' & f' & k' & s' & -> & Hk' & _ & [= -> _ -> -> -> -> ->]).
  exists a', b', c', x', e', f, f'. by rewrite Hk, Hk'.
Qed.

(** X11. The response gives the raw rows back: two requests answered with
    the same value had first result sets of the same length that agree, row
    by row, on the corners and the confidence, and on the integer part of the
    class id, which is all the handler drops. *)
Theorem detect_objects_response_determines_rows
    file1 file2 w1 w2 p1 p2 image1 image2 results1 results2 first1 first2 out :
  Image_open (content file1) = Ok image1 →
  forward (model p1) image1 w1 = Ok results1 →
  list_getitem (xyxy results1) 0 = Ok first1 →
  Image_open (content file2) = Ok image2 →
  forward (model p2) image2 w2 = Ok results2 →
  list_getitem (xyxy results2) 0 = Ok first2 →
  (detect_objects file1 w1 p1).1 = Ok out →
  (detect_objects file2 w2 p2).1 = Ok out →
  Forall2 same_detection first1 first2.
Proof.
  intros Himg1 Hfwd1 Hfirst1 Himg2 Hfwd2 Hfirst2 Hout1 Hout2.
  rewrite (detect_objects_first _ _ _ _ _ _ Himg1 Hfwd1 Hfirst1) in Hout1.
  rewrite (detect_objects_first _ _ _ _ _ _ Himg2 Hfwd2 Hfirst2) in Hout2.
  destruct (rows_records (names (model p1)) first1) as [ds1|] eqn:Hds1;
    [|discriminate].
  destruct (rows_records (names (model p2)) first2) as [ds2|] eqn:Hds2;
    [|discriminate].
  injection Hout1 as <-. injection Hout2 as ->.
  apply rows_records_Ok in Hds1, Hds2.
  apply Forall2_flip in Hds2.
  eapply Forall2_trans; [|exact Hds1|exact Hds2].
  intros raw1 d raw2 Hd1 Hd2. by eapply detection_record_of_same.
Qed.

End Service.

Arguments model {Image} _.
Arguments calls {Image} _.
Arguments module_init {Image} torch_hub_load.
Arguments loop_body {Image} detection detections _.
Arguments after_read {Image} Image_open image_data w _.
Arguments detect_objects {Image} Image_open file w _.
Arguments process {Image} _.
Arguments tasks {Image} _.
Arguments boot {Image} torch_hub_load.
Arguments turn {Image} Image_open sv a.
Arguments run {Image} Image_open torch_hub_load schedule.


(** ** The service on the fixtures *)

Import Demo.

Example street_detected :
  (detect_objects Image_open (png [x01]) 0%nat (module_init (hub detector))).1
  = Ok (response street_records).
Proof. reflexivity. Qed.

(** A class id of 1.75 is truncated to 1. *)
Example bike_detected :
  (detect_objects Image_open (png [x02]) 0%nat (module_init (hub detector))).1
  = Ok (response bike_records).
Proof. reflexivity. Qed.

(** On a table that is a list, class id -1 names its last entry. *)
Example negative_class_on_list :
  (detect_objects Image_open (png [x07]) 0%nat (module_init (hub detector_list))).1
  = Ok (response [record (-1) "car" 0.5 1 2 3 4]).
Proof. reflexivity. Qed.

Example forward_failure_propagates :
  (detect_objects Image_open (png [xff]) 0%nat (module_init (hub detector))).1
  = Raise (InferenceError 1).
Proof. reflexivity. Qed.

Example names_getitem_examples :
  names_getitem (NamesList ["person"; "bicycle"; "car"]) 3 = Raise IndexError ∧
  names_getitem (NamesList ["person"; "bicycle"; "car"]) (-3) = Ok "person" ∧
  names_getitem (NamesList ["person"; "bicycle"; "car"]) (-4) = Raise IndexError ∧
  names_getitem (NamesDict coco3) (-1) = Raise (KeyError (-1)).
Proof. by repeat split. Qed.

Example python_int_examples :
  python_int nan = Raise ValueError ∧
  python_int neg_infinity = Raise OverflowError ∧
  python_int (-0.5)%float = Ok 0 ∧
  python_int (-2.5)%float = Ok (-2) ∧
  python_int (1e20)%float = Ok 100000000000000000000.
Proof. by repeat split. Qed.

Lemma detect_objects_records_witness :
  Image_open (content (png [x01])) = Ok [x01] ∧
  forward detector [x01] 0%nat = Ok {| xyxy := [street] |} ∧
  list_getitem [street] 0 = Ok street ∧
  ((detect_objects Image_open (png [x01]) 0%nat (module_init (hub detector))).1
   = Ok (response street_records) ↔
   ∃ ds, response street_records = PyDict [("detections", PyList ds)] ∧
         Forall2 (detection_record_of (NamesDict coco3)) street ds).
Proof.
  refine (conj eq_refl (conj eq_refl (conj eq_refl _))).
  exact (detect_objects_records Image Image_open (png [x01]) 0%nat
           (module_init (hub detector)) [x01] {| xyxy := [street] |} street
           (response street_records) eq_refl eq_refl eq_refl).
Defined.

Lemma detect_objects_one_per_row_witness :
  Image_open (content (png [x01])) = Ok [x01] ∧
  forward detector [x01] 0%nat = Ok {| xyxy := [street] |} ∧
  list_getitem [street] 0 = Ok street ∧
  (detect_objects Image_open (png [x01]) 0%nat (module_init (hub detector))).1
  = Ok (PyDict [("detections", PyList street_records)]) ∧
  length street_records = length street.
Proof.
  refine (conj eq_refl (conj eq_refl (conj eq_refl (conj eq_refl _)))).
  exact (proj1 (proj1 (detect_objects_one_per_row Image Image_open (png [x01])
                         0%nat (module_init (hub detector)) [x01]
                         {| xyxy := [street] |} street eq_refl eq_refl eq_refl)
                  street_records eq_refl)).
Defined.

Lemma detect_objects_nothing_found_witness :
  Image_open (content (png [])) = Ok [] ∧
  forward detector [] 0%nat = Ok {| xyxy := [[]] |} ∧
  list_getitem [[] : Tensor] 0 = Ok [] ∧
  (detect_objects Image_open (png []) 0%nat (module_init (hub detector))).1
  = Ok (PyDict [("detections", PyList [])]).
Proof.
  refine (conj eq_refl (conj eq_refl (conj eq_refl _))).
  exact (detect_objects_nothing_found Image Image_open (png []) 0%nat
           (module_init (hub detector)) [] {| xyxy := [[]] |}
           eq_refl eq_refl eq_refl).
Defined.



Lemma detect_objects_undecodable_witness :
  Image_open (content notes_txt) = Raise UnidentifiedImageError ∧
  (detect_objects Image_open notes_txt 0%nat (module_init (hub detector))).1
  = Raise UnidentifiedImageError ∧
  calls (detect_objects Image_open notes_txt 0%nat (module_init (hub detector))).2
  = [HubLoad "ultralytics/yolov5" "yolov5s"; UploadRead; ImageOpen] ∧
  framework_response
    (detect_objects Image_open notes_txt 0%nat (module_init (hub detector))).1
  = {| status := 500; body := None |}.
Proof.
  refine (conj eq_refl _).
  exact (detect_objects_undecodable Image Image_open notes_txt 0%nat
           (module_init (hub detector)) UnidentifiedImageError eq_refl).
Defined.

(** The second call is made later, in a process that has served another
    request, on a copy of the upload under another name and with another
    draw of the detector's entropy. *)
Lemma detect_objects_deterministic_witness :
  let p1 := module_init (hub detector) in
  let p2 := (detect_objects Image_open notes_txt 3%nat p1).2 in
  let copy := {| filename := "copy.png"; content := content (png [x01]) |} in
  model p1 = model p2 ∧
  content (png [x01]) = content copy ∧
  (∀ image, Image_open (content (png [x01])) = Ok image →
     forward (model p1) image 0%nat = forward (model p1) image 7%nat) ∧
  (detect_objects Image_open (png [x01]) 0%nat p1).1
  = (detect_objects Image_open copy 7%nat p2).1.
Proof.
  refine (conj eq_refl (conj eq_refl (conj (λ _ _, eq_refl) _))).
  exact (detect_objects_deterministic Image Image_open (png [x01])
           {| filename := "copy.png"; content := content (png [x01]) |}
           0%nat 7%nat (module_init (hub detector))
           (detect_objects Image_open notes_txt 3%nat (module_init (hub detector))).2
           eq_refl eq_refl (λ _ _, eq_refl)).
Defined.

Lemma detect_objects_unknown_class_witness :
  Image_open (content (png [x07])) = Ok [x07] ∧
  forward detector [x07] 0%nat
  = Ok {| xyxy := [[[1; 2; 3; 4; 0.5; 0]; [1; 2; 3; 4; 0.5; 7]]%float] |} ∧
  python_int 7%float = Ok 7 ∧
  ¬ valid_key (NamesDict coco3) 7 ∧
  Forall (resolvable (NamesDict coco3)) [[1; 2; 3; 4; 0.5; 0]%float] ∧
  (detect_objects Image_open (png [x07]) 0%nat (module_init (hub detector))).1
  = Raise (KeyError 7).
Proof.
  assert (Hinvalid : ¬ valid_key (NamesDict coco3) 7).
  { apply not_elem_of_dom. reflexivity. }
  assert (Hbefore : Forall (resolvable (NamesDict coco3)) [[1; 2; 3; 4; 0.5; 0]%float]).
  { constructor; [|constructor].
    exists 1%float, 2%float, 3%float, 4%float, 0.5%float, 0%float, 0.
    split; [reflexivity|]. split; [reflexivity|].
    apply elem_of_dom. by exists "person". }
  refine (conj eq_refl (conj eq_refl (conj eq_refl (conj Hinvalid (conj Hbefore _))))).
  exact (proj2 (proj2 (detect_objects_unknown_class Image Image_open (png [x07])
                         0%nat (module_init (hub detector)) [x07]
                         {| xyxy := [[[1; 2; 3; 4; 0.5; 0]; [1; 2; 3; 4; 0.5; 7]]%float] |}
                         [[1; 2; 3; 4; 0.5; 0]%float] []
                         1%float 2%float 3%float 4%float 0.5%float 7%float 7
                         eq_refl eq_refl eq_refl eq_refl Hinvalid))
           Hbefore).
Defined.

(** Two requests in flight: the first is parked at its read while the second
    runs to the end; each ends with the detections of its own image. *)
Lemma requests_isolated_witness :
  let schedule := [Accept (png [x01]) 0%nat; Accept (png [x02]) 0%nat;
                   Park 0; Finish 1] in
  tasks (run Image_open (hub detector) schedule) !! 0%nat
  = Some (AwaitingRead (png [x01]) 0%nat) ∧
  tasks (run Image_open (hub detector) schedule) !! 1%nat
  = Some (Returned (png [x02]) 0%nat (Ok (response bike_records))) ∧
  tasks (run Image_open (hub detector) (schedule ++ [Finish 0%nat])) !! 0%nat
  = Some (Returned (png [x01]) 0%nat (Ok (response street_records))) ∧
  tasks (run Image_open (hub detector) (schedule ++ [Finish 0%nat])) !! 1%nat
  = Some (Returned (png [x02]) 0%nat (Ok (response bike_records))).
Proof.
  intros schedule.
  pose proof (requests_isolated Image Image_open (hub detector) schedule
                0%nat (png [x01]) 0%nat) as [_ Hlive].
  destruct (Hlive (or_intror eq_refl)) as [Hmine Hothers].
  refine (conj eq_refl (conj eq_refl (conj Hmine _))).
  rewrite (Hothers 1%nat); [reflexivity|discriminate].
Defined.

(** *** The other ways out of the handler, on the fixtures *)

Example shape_examples :
  is_response (response street_records) = true ∧
  is_response (PyDict []) = false ∧
  is_response (response [PyDict [("class_id", PyInt 0)]]) = false.
Proof. by repeat split. Qed.

Example infinite_class_id :
  (detect_objects Image_open (png [x07]) 0%nat (module_init (hub detector_infinity))).1
  = Raise OverflowError.
Proof. reflexivity. Qed.

Lemma first_row_resolvable :
  Forall (resolvable (NamesDict coco3)) [[1; 2; 3; 4; 0.5; 0]%float].
Proof.
  constructor; [|constructor].
  exists 1%float, 2%float, 3%float, 4%float, 0.5%float, 0%float, 0.
  split; [reflexivity|]. split; [reflexivity|].
  apply elem_of_dom. by exists "person".
Qed.

Lemma detect_objects_forward_raises_witness :
  Image_open (content (png [xff])) = Ok [xff] ∧
  forward detector [xff] 0%nat = Raise (InferenceError 1) ∧
  (detect_objects Image_open (png [xff]) 0%nat (module_init (hub detector))).1
  = Raise (InferenceError 1).
Proof.
  refine (conj eq_refl (conj eq_refl _)).
  exact (detect_objects_forward_raises Image Image_open (png [xff]) 0%nat
           (module_init (hub detector)) [xff] (InferenceError 1) eq_refl eq_refl).
Defined.

Lemma detect_objects_no_tensor_witness :
  Image_open (content (png [x01])) = Ok [x01] ∧
  forward detector_no_tensor [x01] 0%nat = Ok {| xyxy := [] |} ∧
  (detect_objects Image_open (png [x01]) 0%nat
     (module_init (hub detector_no_tensor))).1
  = Raise IndexError.
Proof.
  refine (conj eq_refl (conj eq_refl _)).
  exact (detect_objects_no_tensor Image Image_open (png [x01]) 0%nat
           (module_init (hub detector_no_tensor)) [x01] {| xyxy := [] |}
           eq_refl eq_refl eq_refl).
Defined.

(** The two passes differ in their second tensor. *)
Lemma detect_objects_first_tensor_only_witness :
  Image_open (content (png [x01])) = Ok [x01] ∧
  forward detector_batch [x01] 0%nat = Ok {| xyxy := [street; []] |} ∧
  forward detector_batch [x01] 1%nat = Ok {| xyxy := [street; bike] |} ∧
  (detect_objects Image_open (png [x01]) 0%nat (module_init (hub detector_batch))).1
  = (detect_objects Image_open (png [x01]) 1%nat (module_init (hub detector_batch))).1.
Proof.
  refine (conj eq_refl (conj eq_refl (conj eq_refl _))).
  exact (detect_objects_first_tensor_only Image Image_open (png [x01])
           0%nat 1%nat (module_init (hub detector_batch)) [x01] street
           [[]] [bike] eq_refl eq_refl eq_refl).
Defined.

Lemma detect_objects_malformed_row_witness :
  Image_open (content (png [x07])) = Ok [x07] ∧
  forward detector_short [x07] 0%nat
  = Ok {| xyxy := [[[1; 2; 3; 4; 0.5; 0]; [1; 2; 3; 4; 0.5]]%float] |} ∧
  length [1; 2; 3; 4; 0.5]%float ≠ 6%nat ∧
  (detect_objects Image_open (png [x07]) 0%nat (module_init (hub detector_short))).1
  = Raise ValueError.
Proof.
  assert (Hlen : length [1; 2; 3; 4; 0.5]%float ≠ 6%nat) by discriminate.
  refine (conj eq_refl (conj eq_refl (conj Hlen _))).
  exact (detect_objects_malformed_row Image Image_open (png [x07]) 0%nat
           (module_init (hub detector_short)) [x07]
           {| xyxy := [[[1; 2; 3; 4; 0.5; 0]; [1; 2; 3; 4; 0.5]]%float] |}
           [[1; 2; 3; 4; 0.5; 0]%float] [1; 2; 3; 4; 0.5]%float []
           eq_refl eq_refl eq_refl first_row_resolvable Hlen).
Defined.

(** The row after the NaN has a class id outside the table; it is never
    reached. *)
Lemma detect_objects_class_id_not_finite_witness :
  Image_open (content (png [x07])) = Ok [x07] ∧
  is_finite nan = false ∧
  (detect_objects Image_open (png [x07]) 0%nat (module_init (hub detector_nan))).1
  = Raise ValueError.
Proof.
  refine (conj eq_refl (conj eq_refl _)).
  exact (detect_objects_class_id_not_finite Image Image_open (png [x07]) 0%nat
           (module_init (hub detector_nan)) [x07]
           {| xyxy := [[[1; 2; 3; 4; 0.5; 0]; [1; 2; 3; 4; 0.5; nan];
                        [1; 2; 3; 4; 0.5; 7]]%float] |}
           [[1; 2; 3; 4; 0.5; 0]%float] [[1; 2; 3; 4; 0.5; 7]%float]
           1%float 2%float 3%float 4%float 0.5%float nan
           eq_refl eq_refl eq_refl first_row_resolvable eq_refl).
Defined.

Lemma detect_objects_first_failure_witness :
  Image_open (content (png [x07])) = Ok [x07] ∧
  (loop_body [1; 2; 3; 4; 0.5; 7]%float [] (module_init (hub detector))).1
  = Raise (KeyError 7) ∧
  (detect_objects Image_open (png [x07]) 0%nat (module_init (hub detector))).1
  = Raise (KeyError 7).
Proof.
  refine (conj eq_refl (conj eq_refl _)).
  exact (detect_objects_first_failure Image Image_open (png [x07]) 0%nat
           (module_init (hub detector)) [x07]
           {| xyxy := [[[1; 2; 3; 4; 0.5; 0]; [1; 2; 3; 4; 0.5; 7]]%float] |}
           [[1; 2; 3; 4; 0.5; 0]%float] [1; 2; 3; 4; 0.5; 7]%float [] []
           (KeyError 7) eq_refl eq_refl eq_refl first_row_resolvable eq_refl).
Defined.

Lemma detect_objects_response_shape_witness :
  (detect_objects Image_open (png [x01]) 0%nat (module_init (hub detector))).1
  = Ok (response street_records) ∧
  is_response (response street_records) = true.
Proof.
  refine (conj eq_refl _).
  exact (detect_objects_response_shape Image Image_open (png [x01]) 0%nat
           (module_init (hub detector)) (response street_records) eq_refl).
Defined.

(** -2.5 is -5629499534213120 * 2^-51 and converts to -2, not to -3. *)
Lemma python_int_quot_witness :
  Prim2SF (-2.5)%float = S754_finite true 5629499534213120 (-51) ∧
  python_int (-2.5)%float = Ok (-2).
Proof.
  refine (conj eq_refl _).
  exact (python_int_quot (-2.5)%float true 5629499534213120 (-51) eq_refl).
Defined.

Lemma loop_body_negative_class_id_witness :
  names (model (module_init (hub detector_list)))
  = NamesList ["person"; "bicycle"; "car"] ∧
  python_int (-1)%float = Ok (-1) ∧
  - Z.of_nat (length ["person"; "bicycle"; "car"]) ≤ -1 < 0 ∧
  ∃ class_name,
    ["person"; "bicycle"; "car"] !! Z.to_nat (-1 + 3) = Some class_name ∧
    (loop_body [1; 2; 3; 4; 0.5; -1]%float [] (module_init (hub detector_list))).1
    = Ok [record (-1) class_name 0.5 1 2 3 4].
Proof.
  assert (Hrange : - Z.of_nat (length ["person"; "bicycle"; "car"]) ≤ -1 < 0)
    by (simpl; lia).
  refine (conj eq_refl (conj eq_refl (conj Hrange _))).
  exact (loop_body_negative_class_id Image (module_init (hub detector_list))
           ["person"; "bicycle"; "car"] [] 1%float 2%float 3%float 4%float
           0.5%float (-1)%float (-1) eq_refl eq_refl Hrange).
Defined.

(** The street scene reported with other fractional parts of the class ids
    is answered alike. *)
Lemma detect_objects_response_determines_rows_witness :
  let street' : Tensor :=
    [[12.5; 30; 200; 310.25; 0.875; 0.5]; [5; 6; 50; 60; 0.25; 2.25]]%float in
  let detector' : Model Image :=
    {| names := NamesDict coco3; forward := λ _ _, Ok {| xyxy := [street'] |} |} in
  (detect_objects Image_open (png [x01]) 0%nat (module_init (hub detector))).1
  = Ok (response street_records) ∧
  (detect_objects Image_open (png [x02]) 5%nat (module_init (hub detector'))).1
  = Ok (response street_records) ∧
  Forall2 same_detection street street'.
Proof.
  intros street' detector'.
  refine (conj eq_refl (conj eq_refl _)).
  exact (detect_objects_response_determines_rows Image Image_open
           (png [x01]) (png [x02]) 0%nat 5%nat
           (module_init (hub detector)) (module_init (hub detector'))
           [x01] [x02] {| xyxy := [street] |} {| xyxy := [street'] |}
           street street' (response street_records)
           eq_refl eq_refl eq_refl eq_refl eq_refl eq_refl eq_refl eq_refl).
Defined.
